(** * J1939 CAN identifier codec

    A shallow embedding of [parse_j1939_id] and [build_j1939_id] from
    [main.py], and the properties of the codec.

    Python integers are unbounded and two's complement under the bit
    operators: [>>] is the arithmetic (flooring) shift, [&] and [|] work on
    the infinite sign extension.  These are exactly [Z.shiftr], [Z.land] and
    [Z.lor] on [Z], so the integers of the program are modelled as [Z] with
    no wrap-around. [int(x)] on an integer is the identity. *)

From Stdlib Require Import ZArith Lia Bool.
From coqutil Require Import Z.bitblast.

Local Open Scope Z_scope.

(** ** The program *)

Module J1939.

(** The dictionary returned by [parse_j1939_id]: its seven keys are fixed,
    so it is a record. *)
Record fields : Type := mk_fields
  { priority : Z
  ; reserved : Z
  ; data_page : Z
  ; pdu_format : Z
  ; pdu_specific : Z
  ; source_address : Z
  ; pgn : Z }.

(** [parse_j1939_id(can_id)], main.py lines 3-29. *)
Definition parse_j1939_id (can_id : Z) : fields :=
  let priority := Z.land (Z.shiftr can_id 26) 0x7 in
  let reserved := Z.land (Z.shiftr can_id 25) 0x1 in
  let data_page := Z.land (Z.shiftr can_id 24) 0x1 in
  let pdu_format := Z.land (Z.shiftr can_id 16) 0xFF in
  let pdu_specific := Z.land (Z.shiftr can_id 8) 0xFF in
  let source_address := Z.land can_id 0xFF in
  let pgn :=
    if pdu_format <? 240
    then Z.lor (Z.shiftl data_page 16) (Z.shiftl pdu_format 8)
    else Z.lor (Z.lor (Z.shiftl data_page 16) (Z.shiftl pdu_format 8))
               pdu_specific in
  mk_fields priority reserved data_page pdu_format pdu_specific
            source_address pgn.

(** [build_j1939_id(priority, pgn, source_address, reserved)],
    main.py lines 31-48.  The identifier is assembled in two statements:
    [can_id = a | b | c | d] and then [can_id |= (e | f)]. *)
Definition build_j1939_id (priority pgn source_address reserved : Z) : Z :=
  let priority := Z.land priority 0x7 in
  let reserved := Z.land reserved 0x1 in
  let source_address := Z.land source_address 0xFF in
  let data_page := Z.land (Z.shiftr pgn 16) 0x1 in
  let pdu_format := Z.land (Z.shiftr pgn 8) 0xFF in
  let pdu_specific := Z.land pgn 0xFF in
  let can_id :=
    Z.lor (Z.lor (Z.lor (Z.shiftl priority 26) (Z.shiftl reserved 25))
                 (Z.shiftl data_page 24))
          (Z.shiftl pdu_format 16) in
  Z.lor can_id (Z.lor (Z.shiftl pdu_specific 8) source_address).

(** The call with the default [reserved=0]. *)
Definition build_j1939_id_default (priority pgn source_address : Z) : Z :=
  build_j1939_id priority pgn source_address 0.

(** The reassembly formula as one expression,
    [(p << 26) | (r << 25) | (dp << 24) | (pf << 16) | (ps << 8) | sa],
    with Python's left-associative [|]. *)
Definition reassemble (f : fields) : Z :=
  Z.lor (Z.lor (Z.lor (Z.lor (Z.lor (Z.shiftl (priority f) 26)
                                    (Z.shiftl (reserved f) 25))
                             (Z.shiftl (data_page f) 24))
                      (Z.shiftl (pdu_format f) 16))
               (Z.shiftl (pdu_specific f) 8))
        (source_address f).

End J1939.

Import J1939.

(** ** The program on concrete inputs *)

(** The example of the command-line help: priority 6, PGN 65262, source
    address 0. *)
Example build_65262 : build_j1939_id_default 6 65262 0x00 = 0x18FEEE00.
Proof. reflexivity. Qed.

(** A PDU1 identifier whose PDU specific byte is zero. *)
Example build_0x100 : build_j1939_id_default 0 0x100 0x05 = 0x00010005.
Proof. reflexivity. Qed.

Example parse_0x00010005 :
  parse_j1939_id 0x00010005 = mk_fields 0 0 0 1 0 5 0x100.
Proof. reflexivity. Qed.

(** A PDU1 identifier with a destination address in the PDU specific byte:
    the byte is decoded, and left out of the PGN. *)
Example parse_0x18EF2103 :
  parse_j1939_id 0x18EF2103 = mk_fields 6 0 0 0xEF 0x21 0x03 0xEF00.
Proof. reflexivity. Qed.

(** Python's [>>] and [&] on a negative integer: every field of [-1] is all
    ones. *)
Example parse_minus_1 :
  parse_j1939_id (-1) = mk_fields 7 1 1 255 255 255 0x1FFFF.
Proof. reflexivity. Qed.

(** ** Bit-level reasoning *)

(** The masks of the program are runs of low one bits; [unmask] exposes
    them so that the bit of every sub-expression can be computed. *)
Ltac unmask :=
  change 0x1FFFF with (Z.ones 17) in *;
  change 0xFF with (Z.ones 8) in *;
  change 0x7 with (Z.ones 3) in *;
  change 0x1 with (Z.ones 1) in *.

(** A non-negative integer below [2 ^ n] has no bit set from [n] upwards. *)
Lemma testbit_high_zero (n c i : Z) :
  0 <= n -> 0 <= c < 2 ^ n -> n <= i -> Z.testbit c i = false.
Proof.
  intros Hn Hc Hi.
  rewrite <- (Z.mod_small c (2 ^ n)) by exact Hc.
  apply Z.mod_pow2_bits_high. lia.
Qed.

(** An integer that is unchanged by masking with [n] low ones lies in
    [0, 2 ^ n). *)
Lemma masked_range (n x : Z) :
  0 <= n -> x = Z.land x (Z.ones n) -> 0 <= x < 2 ^ n.
Proof.
  intros Hn Hx. rewrite Hx, Z.land_ones by exact Hn.
  apply Z.mod_pos_bound. apply Z.pow_pos_nonneg; lia.
Qed.

(** Masking twice with the same mask is masking once. *)
Lemma land_mask_idem (x m : Z) : Z.land (Z.land x m) m = Z.land x m.
Proof. now rewrite <- Z.land_assoc, Z.land_diag. Qed.

(** *** The fields read back from a built identifier *)

Section ParseOfBuild.
Variables priority pgn source_address reserved : Z.

Local Abbreviation can_id :=
  (build_j1939_id priority pgn source_address reserved).

Lemma get_priority :
  Z.land (Z.shiftr can_id 26) 0x7 = Z.land priority 0x7.
Proof. unfold build_j1939_id; unmask; Z.bitblast. Qed.

Lemma get_reserved :
  Z.land (Z.shiftr can_id 25) 0x1 = Z.land reserved 0x1.
Proof. unfold build_j1939_id; unmask; Z.bitblast. Qed.

Lemma get_data_page :
  Z.land (Z.shiftr can_id 24) 0x1 = Z.land (Z.shiftr pgn 16) 0x1.
Proof. unfold build_j1939_id; unmask; Z.bitblast. Qed.

Lemma get_pdu_format :
  Z.land (Z.shiftr can_id 16) 0xFF = Z.land (Z.shiftr pgn 8) 0xFF.
Proof. unfold build_j1939_id; unmask; Z.bitblast. Qed.

Lemma get_pdu_specific :
  Z.land (Z.shiftr can_id 8) 0xFF = Z.land pgn 0xFF.
Proof. unfold build_j1939_id; unmask; Z.bitblast. Qed.

Lemma get_source_address :
  Z.land can_id 0xFF = Z.land source_address 0xFF.
Proof. unfold build_j1939_id; unmask; Z.bitblast. Qed.

(** Decoding a built identifier, field by field: the six primitive fields
    are the masked inputs, and the PGN is recomputed from them by the
    PDU1/PDU2 rule. *)
Lemma parse_build :
  parse_j1939_id can_id =
  let data_page := Z.land (Z.shiftr pgn 16) 0x1 in
  let pdu_format := Z.land (Z.shiftr pgn 8) 0xFF in
  let pdu_specific := Z.land pgn 0xFF in
  mk_fields (Z.land priority 0x7) (Z.land reserved 0x1)
            data_page pdu_format pdu_specific
            (Z.land source_address 0xFF)
            (if pdu_format <? 240
             then Z.lor (Z.shiftl data_page 16) (Z.shiftl pdu_format 8)
             else Z.lor (Z.lor (Z.shiftl data_page 16)
                               (Z.shiftl pdu_format 8))
                        pdu_specific).
Proof.
  unfold parse_j1939_id; cbv zeta.
  rewrite get_priority, get_reserved, get_data_page, get_pdu_format,
    get_pdu_specific, get_source_address.
  reflexivity.
Qed.

(** The three PGN components of an integer, put back in place, are its low
    17 bits. *)
Lemma pgn_components :
  Z.lor (Z.lor (Z.shiftl (Z.land (Z.shiftr pgn 16) 0x1) 16)
               (Z.shiftl (Z.land (Z.shiftr pgn 8) 0xFF) 8))
        (Z.land pgn 0xFF)
  = Z.land pgn 0x1FFFF.
Proof. unmask; Z.bitblast. Qed.

(** [build_j1939_id] is the reassembly formula applied to the masked
    inputs and the components of [pgn]. *)
Lemma build_reassemble :
  can_id =
  reassemble (mk_fields (Z.land priority 0x7) (Z.land reserved 0x1)
                        (Z.land (Z.shiftr pgn 16) 0x1)
                        (Z.land (Z.shiftr pgn 8) 0xFF)
                        (Z.land pgn 0xFF)
                        (Z.land source_address 0xFF) 0).
Proof.
  unfold build_j1939_id, reassemble; cbn.
  now rewrite Z.lor_assoc.
Qed.

(** Only the low 29 bits of a built identifier can be set. *)
Lemma build_low_29 : can_id = Z.land can_id (Z.ones 29).
Proof. unfold build_j1939_id; unmask; Z.bitblast. Qed.

End ParseOfBuild.

(** *** The fields of a decoded identifier *)

Section Parse.
Variable can_id : Z.

(** Reducing the identifier modulo [2 ^ 29] changes none of the six
    extracted fields. *)
Lemma field_mod_29 (lo w : Z) :
  0 <= lo -> 0 <= w -> lo + w <= 29 ->
  Z.land (Z.shiftr (can_id mod 2 ^ 29) lo) (Z.ones w)
  = Z.land (Z.shiftr can_id lo) (Z.ones w).
Proof. intros Hlo Hw Hle. Z.bitblast. Qed.

(** The PGN computed by either branch has no bit above bit 16. *)
Lemma pgn_low_17 :
  pgn (parse_j1939_id can_id)
  = Z.land (pgn (parse_j1939_id can_id)) (Z.ones 17).
Proof.
  unfold parse_j1939_id; cbn [pgn].
  destruct (_ <? 240); unmask; Z.bitblast.
Qed.

End Parse.

(** ** Decoding *)

(** C8. Literal scenario: decoding [0x18FEF100] gives priority 6, reserved
    0, data page 0, PDU format 254, PDU specific 241, source address 0 and
    PGN 65265. *)
Theorem parse_0x18FEF100 :
  parse_j1939_id 0x18FEF100 = mk_fields 6 0 0 254 241 0 65265.
Proof. reflexivity. Qed.

(** C1. For every identifier in [0, 2^29), the six primitive fields of the
    decoded record recombine to the identifier by the reassembly formula
    [(priority << 26) | (reserved << 25) | (data_page << 24) |
     (pdu_format << 16) | (pdu_specific << 8) | source_address]. *)
Theorem parse_fields_recombine (can_id : Z) :
  0 <= can_id < 2 ^ 29 ->
  let f := parse_j1939_id can_id in
  Z.lor (Z.lor (Z.lor (Z.lor (Z.lor (Z.shiftl (priority f) 26)
                                    (Z.shiftl (reserved f) 25))
                             (Z.shiftl (data_page f) 24))
                      (Z.shiftl (pdu_format f) 16))
               (Z.shiftl (pdu_specific f) 8))
        (source_address f)
  = can_id.
Proof.
  intros Hrange f; subst f.
  unfold parse_j1939_id;
    cbn [priority reserved data_page pdu_format pdu_specific source_address].
  unmask. Z.bitblast.
  (* Only the bits from 29 upwards are left: there the identifier has none. *)
  rewrite (testbit_high_zero 29 can_id) by lia.
  reflexivity.
Qed.

Lemma parse_fields_recombine_witness :
  0 <= 0x18FEF100 < 2 ^ 29 /\
  (let f := parse_j1939_id 0x18FEF100 in
   Z.lor (Z.lor (Z.lor (Z.lor (Z.lor (Z.shiftl (priority f) 26)
                                     (Z.shiftl (reserved f) 25))
                              (Z.shiftl (data_page f) 24))
                       (Z.shiftl (pdu_format f) 16))
                (Z.shiftl (pdu_specific f) 8))
         (source_address f)
   = 0x18FEF100).
Proof.
  split; [lia | apply (parse_fields_recombine 0x18FEF100); lia].
Defined.

(** C5. Decoding never fails: every integer, negative or wider than 29
    bits, has a result, and it is the result for the identifier reduced
    modulo [2^29]. *)
Theorem parse_total_mod_2_29 (can_id : Z) :
  exists r : fields,
    parse_j1939_id can_id = r /\
    parse_j1939_id (can_id mod 2 ^ 29) = r.
Proof.
  exists (parse_j1939_id can_id). split; [reflexivity|].
  unfold parse_j1939_id; cbv zeta. unmask.
  rewrite !field_mod_29 by lia.
  replace (Z.land (can_id mod 2 ^ 29) (Z.ones 8))
    with (Z.land can_id (Z.ones 8)) by Z.bitblast.
  reflexivity.
Qed.

(** C7. At the boundary, PDU format exactly 240, the PDU2 branch is taken:
    the PGN is [(data_page << 16) | (240 << 8) | pdu_specific]. *)
Theorem parse_pdu_format_240 (can_id : Z) :
  Z.land (Z.shiftr can_id 16) 0xFF = 240 ->
  let f := parse_j1939_id can_id in
  pgn f = Z.lor (Z.lor (Z.shiftl (data_page f) 16) (Z.shiftl 240 8))
                (pdu_specific f).
Proof.
  intros Hpf f; subst f.
  unfold parse_j1939_id; cbn [pgn data_page pdu_specific].
  rewrite Hpf. reflexivity.
Qed.

Lemma parse_pdu_format_240_witness :
  Z.land (Z.shiftr 0x19F0A5C3 16) 0xFF = 240 /\
  pgn (parse_j1939_id 0x19F0A5C3) = 0x1F0A5.
Proof.
  split; [reflexivity | apply (parse_pdu_format_240 0x19F0A5C3); reflexivity].
Defined.

(** C10. The decoded PGN always fits in 17 bits: it lies in [0, 0x1FFFF]. *)
Theorem parse_pgn_17_bits (can_id : Z) :
  0 <= pgn (parse_j1939_id can_id) <= 0x1FFFF.
Proof.
  pose proof (masked_range 17 _ ltac:(lia) (pgn_low_17 can_id)) as H.
  change (2 ^ 17) with 131072 in H. lia.
Qed.

(** ** Encoding *)

(** C6. Masking law: building is unchanged when priority, source address
    and reserved are first truncated to 3, 8 and 1 bits; out-of-range
    values are truncated, not rejected. *)
Theorem build_masking_law (priority pgn source_address reserved : Z) :
  build_j1939_id priority pgn source_address reserved
  = build_j1939_id (Z.land priority 0x7) pgn (Z.land source_address 0xFF)
                   (Z.land reserved 0x1).
Proof.
  unfold build_j1939_id; cbv zeta.
  rewrite !land_mask_idem. reflexivity.
Qed.

(** C9. For all integer arguments the built identifier lies in
    [0, 0x1FFFFFFF]: only its low 29 bits can be set. *)
Theorem build_29_bits (priority pgn source_address reserved : Z) :
  0 <= build_j1939_id priority pgn source_address reserved <= 0x1FFFFFFF.
Proof.
  pose proof (masked_range 29 _ ltac:(lia)
                (build_low_29 priority pgn source_address reserved)) as H.
  change (2 ^ 29) with 536870912 in H. lia.
Qed.

(** ** Round trips *)

(** C4. Decoding a built identifier gives back priority, reserved and
    source address masked to their widths, and the data page and PDU
    format of the PGN argument, for all integer arguments. *)
Theorem parse_build_fields (priority pgn source_address reserved : Z) :
  let d := parse_j1939_id
             (build_j1939_id priority pgn source_address reserved) in
  J1939.priority d = Z.land priority 0x7 /\
  J1939.reserved d = Z.land reserved 0x1 /\
  J1939.source_address d = Z.land source_address 0xFF /\
  data_page d = Z.land (Z.shiftr pgn 16) 0x1 /\
  pdu_format d = Z.land (Z.shiftr pgn 8) 0xFF.
Proof.
  intros d; subst d. rewrite parse_build. cbn. repeat split.
Qed.

(** The PGN decoded from a built identifier in the PDU1 case. *)
Lemma parse_build_pgn_pdu1 (priority pgn source_address reserved : Z) :
  Z.land (Z.shiftr pgn 8) 0xFF < 240 ->
  J1939.pgn (parse_j1939_id
               (build_j1939_id priority pgn source_address reserved))
  = Z.lor (Z.shiftl (Z.land (Z.shiftr pgn 16) 0x1) 16)
          (Z.shiftl (Z.land (Z.shiftr pgn 8) 0xFF) 8).
Proof.
  intros Hlt. rewrite parse_build. cbn [J1939.pgn].
  apply Z.ltb_lt in Hlt. rewrite Hlt. reflexivity.
Qed.

(** C3. PDU1 case: when the PDU format byte of [pgn] is below 240, the PGN
    decoded from the built identifier is
    [(((pgn >> 16) & 1) << 16) | (((pgn >> 8) & 0xFF) << 8)], whatever the
    low byte of [pgn] is. *)
Theorem parse_build_pdu1 (priority pgn source_address reserved : Z) :
  Z.land (Z.shiftr pgn 8) 0xFF < 240 ->
  J1939.pgn (parse_j1939_id
               (build_j1939_id priority pgn source_address reserved))
  = Z.lor (Z.shiftl (Z.land (Z.shiftr pgn 16) 0x1) 16)
          (Z.shiftl (Z.land (Z.shiftr pgn 8) 0xFF) 8).
Proof. exact (parse_build_pgn_pdu1 priority pgn source_address reserved). Qed.

Lemma parse_build_pdu1_witness :
  Z.land (Z.shiftr 0x1EF37 8) 0xFF < 240 /\
  J1939.pgn (parse_j1939_id (build_j1939_id 6 0x1EF37 0x21 0)) = 0x1EF00.
Proof.
  split; [reflexivity | apply (parse_build_pdu1 6 0x1EF37 0x21 0); reflexivity].
Defined.

(** Two PGN arguments that differ only in their low byte decode to the same
    PGN in the PDU1 case: the low byte is lost. *)
Corollary pdu1_low_byte_lost (priority pgn pgn' source_address reserved : Z) :
  Z.shiftr pgn 8 = Z.shiftr pgn' 8 ->
  Z.land (Z.shiftr pgn 8) 0xFF < 240 ->
  J1939.pgn (parse_j1939_id
               (build_j1939_id priority pgn source_address reserved))
  = J1939.pgn (parse_j1939_id
                 (build_j1939_id priority pgn' source_address reserved)).
Proof.
  intros Hsame Hlt.
  assert (Z.shiftr pgn 16 = Z.shiftr pgn' 16) as Hsame16.
  { change 16 with (8 + 8).
    rewrite <- !Z.shiftr_shiftr by lia. now rewrite Hsame. }
  rewrite !parse_build_pgn_pdu1 by (rewrite <- ?Hsame; exact Hlt).
  now rewrite Hsame, Hsame16.
Qed.

(** C2. PDU2 case: for priority in [0,7], source address in [0,255],
    reserved 0 or 1 and a non-negative [pgn] whose PDU format byte is at
    least 240, the PGN decoded from the built identifier is
    [pgn & 0x1FFFF], and data page, PDU format and PDU specific are those
    of [pgn]. *)
Theorem parse_build_pdu2 (priority pgn source_address reserved : Z) :
  0 <= priority <= 7 ->
  0 <= source_address <= 255 ->
  reserved = 0 \/ reserved = 1 ->
  0 <= pgn ->
  240 <= Z.land (Z.shiftr pgn 8) 0xFF ->
  let d := parse_j1939_id
             (build_j1939_id priority pgn source_address reserved) in
  J1939.pgn d = Z.land pgn 0x1FFFF /\
  data_page d = Z.land (Z.shiftr pgn 16) 0x1 /\
  pdu_format d = Z.land (Z.shiftr pgn 8) 0xFF /\
  pdu_specific d = Z.land pgn 0xFF.
Proof.
  intros _ _ _ _ Hge d; subst d.
  rewrite parse_build.
  cbn [J1939.pgn data_page pdu_format pdu_specific].
  repeat split.
  apply Z.ltb_ge in Hge. rewrite Hge.
  apply pgn_components.
Qed.

Lemma parse_build_pdu2_witness :
  (0 <= 6 <= 7) /\ (0 <= 0x21 <= 255) /\ (0 = 0 \/ 0 = 1) /\ 0 <= 0xFEEE /\
  240 <= Z.land (Z.shiftr 0xFEEE 8) 0xFF /\
  (let d := parse_j1939_id (build_j1939_id 6 0xFEEE 0x21 0) in
   J1939.pgn d = Z.land 0xFEEE 0x1FFFF /\
   data_page d = Z.land (Z.shiftr 0xFEEE 16) 0x1 /\
   pdu_format d = Z.land (Z.shiftr 0xFEEE 8) 0xFF /\
   pdu_specific d = Z.land 0xFEEE 0xFF).
Proof.
  assert (Hp : 0 <= 6 <= 7) by lia.
  assert (Hs : 0 <= 0x21 <= 255) by lia.
  assert (Hr : 0 = 0 \/ 0 = 1) by (left; reflexivity).
  assert (Hg : 0 <= 0xFEEE) by lia.
  assert (Hf : 240 <= Z.land (Z.shiftr 0xFEEE 8) 0xFF) by (cbn; lia).
  repeat (split; [assumption|]).
  exact (parse_build_pdu2 6 0xFEEE 0x21 0 Hp Hs Hr Hg Hf).
Defined.

(** ** Further properties of the decoder *)

(** The six primitive fields, reassembled, are the low 29 bits of the
    identifier, for every integer. *)
Lemma reassemble_parse (can_id : Z) :
  reassemble (parse_j1939_id can_id) = can_id mod 2 ^ 29.
Proof.
  unfold reassemble, parse_j1939_id;
    cbn [priority reserved data_page pdu_format pdu_specific source_address].
  rewrite <- Z.land_ones by lia.
  unmask. Z.bitblast.
Qed.

(** Reducing the identifier modulo [2 ^ 29] does not change the decoded
    record. *)
Lemma parse_mod_29 (can_id : Z) :
  parse_j1939_id (can_id mod 2 ^ 29) = parse_j1939_id can_id.
Proof.
  unfold parse_j1939_id; cbv zeta. unmask.
  rewrite !field_mod_29 by lia.
  replace (Z.land (can_id mod 2 ^ 29) (Z.ones 8))
    with (Z.land can_id (Z.ones 8)) by Z.bitblast.
  reflexivity.
Qed.

(** A value masked with [n] low ones lies in [0, 2 ^ n). *)
Lemma land_ones_range (x n : Z) : 0 <= n -> 0 <= Z.land x (Z.ones n) < 2 ^ n.
Proof.
  intros Hn. rewrite Z.land_ones by exact Hn.
  apply Z.mod_pos_bound. apply Z.pow_pos_nonneg; lia.
Qed.

(** X1. Every decoded field is in its range, whatever integer is decoded:
    priority in [0,7], reserved and data page in [0,1], PDU format, PDU
    specific and source address in [0,255]. *)
Theorem parse_field_ranges (can_id : Z) :
  let f := parse_j1939_id can_id in
  0 <= priority f <= 7 /\
  0 <= reserved f <= 1 /\
  0 <= data_page f <= 1 /\
  0 <= pdu_format f <= 255 /\
  0 <= pdu_specific f <= 255 /\
  0 <= source_address f <= 255.
Proof.
  intros f; subst f. unfold parse_j1939_id;
    cbn [priority reserved data_page pdu_format pdu_specific source_address].
  pose proof (land_ones_range (Z.shiftr can_id 26) 3 ltac:(lia)).
  pose proof (land_ones_range (Z.shiftr can_id 25) 1 ltac:(lia)).
  pose proof (land_ones_range (Z.shiftr can_id 24) 1 ltac:(lia)).
  pose proof (land_ones_range (Z.shiftr can_id 16) 8 ltac:(lia)).
  pose proof (land_ones_range (Z.shiftr can_id 8) 8 ltac:(lia)).
  pose proof (land_ones_range can_id 8 ltac:(lia)).
  change (Z.ones 3) with 0x7 in *. change (Z.ones 1) with 0x1 in *.
  change (Z.ones 8) with 0xFF in *.
  change (2 ^ 3) with 8 in *. change (2 ^ 1) with 2 in *.
  change (2 ^ 8) with 256 in *.
  lia.
Qed.

(** X2. The decoded PGN in closed form: bits 8 to 24 of the identifier,
    with the low byte cleared in the PDU1 case. *)
Theorem parse_pgn_closed_form (can_id : Z) :
  pgn (parse_j1939_id can_id)
  = if pdu_format (parse_j1939_id can_id) <? 240
    then Z.land (Z.shiftr can_id 8) 0x1FF00
    else Z.land (Z.shiftr can_id 8) 0x1FFFF.
Proof.
  unfold parse_j1939_id; cbn [pgn pdu_format].
  destruct (_ <? 240).
  - change 0x1FF00 with (Z.shiftl (Z.ones 9) 8). unmask. Z.bitblast.
  - unmask. Z.bitblast.
Qed.

(** The components of a decoded PGN, taken apart the way [build_j1939_id]
    does: data page and PDU format are those of the record, and the low
    byte is the PDU specific byte in the PDU2 case and zero in the PDU1
    case. *)
Lemma pgn_parts (can_id : Z) :
  let f := parse_j1939_id can_id in
  Z.land (Z.shiftr (pgn f) 16) 0x1 = data_page f /\
  Z.land (Z.shiftr (pgn f) 8) 0xFF = pdu_format f /\
  Z.land (pgn f) 0xFF = (if pdu_format f <? 240 then 0 else pdu_specific f).
Proof.
  intros f; subst f. unfold parse_j1939_id;
    cbn [pgn data_page pdu_format pdu_specific].
  destruct (_ <? 240); unmask; repeat split; Z.bitblast.
Qed.

(** X3. The PGN carries the data page and the PDU format of the record:
    they are bit 16 and bits 8 to 15 of the decoded PGN, in both branches;
    its low byte is PDU specific for PDU2 and zero for PDU1. *)
Theorem parse_pgn_components (can_id : Z) :
  let f := parse_j1939_id can_id in
  Z.land (Z.shiftr (pgn f) 16) 0x1 = data_page f /\
  Z.land (Z.shiftr (pgn f) 8) 0xFF = pdu_format f /\
  Z.land (pgn f) 0xFF = (if pdu_format f <? 240 then 0 else pdu_specific f).
Proof. exact (pgn_parts can_id). Qed.

(** X4. Two identifiers decode to the same record exactly when they agree
    modulo [2^29]: the decoder loses nothing of the low 29 bits, and reads
    nothing else. *)
Theorem parse_eq_iff (c1 c2 : Z) :
  parse_j1939_id c1 = parse_j1939_id c2 <-> c1 mod 2 ^ 29 = c2 mod 2 ^ 29.
Proof.
  split; intros H.
  - rewrite <- !reassemble_parse. now rewrite H.
  - rewrite <- (parse_mod_29 c1), <- (parse_mod_29 c2). now rewrite H.
Qed.

(** ** Further properties of the encoder *)

Section Build.
Variables priority pgn source_address reserved : Z.

Local Abbreviation can_id :=
  (build_j1939_id priority pgn source_address reserved).

(** Only the low 17 bits of the PGN argument are used. *)
Lemma build_pgn_mask :
  can_id = build_j1939_id priority (Z.land pgn 0x1FFFF) source_address reserved.
Proof. unfold build_j1939_id; unmask; Z.bitblast; Z.bitblast_core. Qed.

(** The bits of a built identifier from bit 26 upwards are the masked
    priority. *)
Lemma build_shiftr_26 : Z.shiftr can_id 26 = Z.land priority 0x7.
Proof. unfold build_j1939_id; unmask; Z.bitblast. Qed.

(** A built identifier as a combination of its four masked arguments. *)
Lemma build_lor_form :
  can_id =
  Z.lor (Z.lor (Z.lor (Z.shiftl (Z.land priority 0x7) 26)
                      (Z.shiftl (Z.land reserved 0x1) 25))
               (Z.shiftl (Z.land pgn 0x1FFFF) 8))
        (Z.land source_address 0xFF).
Proof. unfold build_j1939_id; unmask; Z.bitblast. Qed.

(** Bits 8 to 24 of a built identifier are the low 17 bits of the PGN
    argument. *)
Lemma build_pgn_bits :
  Z.land (Z.shiftr can_id 8) 0x1FFFF = Z.land pgn 0x1FFFF.
Proof. unfold build_j1939_id; unmask; Z.bitblast. Qed.

(** The four parts of a built identifier do not overlap, so joining them
    with [|] adds them. *)
Lemma build_sum_form :
  can_id =
  Z.land priority 0x7 * 2 ^ 26 + Z.land reserved 0x1 * 2 ^ 25
  + Z.land pgn 0x1FFFF * 2 ^ 8 + Z.land source_address 0xFF.
Proof.
  rewrite build_lor_form.
  rewrite <- !Z.shiftl_mul_pow2 by lia.
  unmask.
  set (a := Z.shiftl (Z.land priority (Z.ones 3)) 26).
  set (b := Z.shiftl (Z.land reserved (Z.ones 1)) 25).
  set (c := Z.shiftl (Z.land pgn (Z.ones 17)) 8).
  set (d := Z.land source_address (Z.ones 8)).
  rewrite <- (Z.or_to_plus a b) by (subst a b; Z.bitblast).
  rewrite <- (Z.or_to_plus (Z.lor a b) c) by (subst a b c; Z.bitblast).
  rewrite <- (Z.or_to_plus (Z.lor (Z.lor a b) c) d)
    by (subst a b c d; Z.bitblast).
  reflexivity.
Qed.

End Build.

(** X5. Only the low 17 bits of the PGN argument reach the identifier:
    building from [pgn] and from [pgn & 0x1FFFF] gives the same result, so a
    PGN wider than 17 bits or negative is truncated, not rejected. *)
Theorem build_pgn_masking_law (priority pgn source_address reserved : Z) :
  build_j1939_id priority pgn source_address reserved
  = build_j1939_id priority (Z.land pgn 0x1FFFF) source_address reserved.
Proof. exact (build_pgn_mask priority pgn source_address reserved). Qed.

(** X6. Two argument lists build the same identifier exactly when they
    agree after truncation: priority to 3 bits, reserved to 1 bit, PGN to
    17 bits and source address to 8 bits. *)
Theorem build_eq_iff (p g s r p' g' s' r' : Z) :
  build_j1939_id p g s r = build_j1939_id p' g' s' r' <->
  Z.land p 0x7 = Z.land p' 0x7 /\
  Z.land r 0x1 = Z.land r' 0x1 /\
  Z.land g 0x1FFFF = Z.land g' 0x1FFFF /\
  Z.land s 0xFF = Z.land s' 0xFF.
Proof.
  split.
  - intros H.
    rewrite <- (get_priority p g s r), <- (get_priority p' g' s' r').
    rewrite <- (get_reserved p g s r), <- (get_reserved p' g' s' r').
    rewrite <- (build_pgn_bits p g s r), <- (build_pgn_bits p' g' s' r').
    rewrite <- (get_source_address p g s r),
      <- (get_source_address p' g' s' r').
    now rewrite H.
  - intros (Hp & Hr & Hg & Hs).
    rewrite (build_lor_form p g s r), (build_lor_form p' g' s' r').
    now rewrite Hp, Hr, Hg, Hs.
Qed.

(** X7. The built identifier as a sum: the fields do not overlap, so it is
    [(priority mod 8) * 2^26 + (reserved mod 2) * 2^25 +
     (pgn mod 2^17) * 2^8 + source_address mod 256], with Python's
    non-negative [%]. *)
Theorem build_as_sum (priority pgn source_address reserved : Z) :
  build_j1939_id priority pgn source_address reserved
  = (priority mod 8) * 2 ^ 26 + (reserved mod 2) * 2 ^ 25
    + (pgn mod 2 ^ 17) * 2 ^ 8 + source_address mod 256.
Proof.
  rewrite build_sum_form. unmask.
  rewrite !Z.land_ones by lia. reflexivity.
Qed.

(** X8. Priority decides the order of identifiers: an identifier built with
    a smaller (masked) priority is numerically smaller than one built with
    a larger priority, whatever the other arguments are. *)
Theorem build_priority_order (p g s r p' g' s' r' : Z) :
  Z.land p 0x7 < Z.land p' 0x7 ->
  build_j1939_id p g s r < build_j1939_id p' g' s' r'.
Proof.
  intros Hlt.
  rewrite <- (build_shiftr_26 p g s r), <- (build_shiftr_26 p' g' s' r') in Hlt.
  rewrite !Z.shiftr_div_pow2 in Hlt by lia.
  destruct (Z.lt_ge_cases (build_j1939_id p g s r)
                          (build_j1939_id p' g' s' r')) as [Hok | Hge];
    [exact Hok|].
  apply (Z.div_le_mono _ _ (2 ^ 26)) in Hge; lia.
Qed.

Lemma build_priority_order_witness :
  Z.land 3 0x7 < Z.land 6 0x7 /\
  build_j1939_id 3 0x1FFFF 0xFF 1 < build_j1939_id 6 0 0 0.
Proof.
  split; [reflexivity | apply (build_priority_order 3 0x1FFFF 0xFF 1 6 0 0 0); reflexivity].
Defined.

(** ** Further round trips *)

(** X9. Every identifier is built from its own bits: for every integer
    [can_id], building from [can_id >> 26], [can_id >> 8], [can_id] and
    [can_id >> 25] gives [can_id mod 2^29]; every value of [0, 2^29) is a
    result of [build_j1939_id]. *)
Theorem build_of_shifts (can_id : Z) :
  build_j1939_id (Z.shiftr can_id 26) (Z.shiftr can_id 8) can_id
                 (Z.shiftr can_id 25)
  = can_id mod 2 ^ 29.
Proof.
  rewrite <- Z.land_ones by lia.
  unfold build_j1939_id; unmask; Z.bitblast.
Qed.

(** Building from the decoded priority, PGN, source address and reserved
    bit of an identifier. *)
Lemma build_parse (can_id : Z) :
  let f := parse_j1939_id can_id in
  build_j1939_id (priority f) (pgn f) (source_address f) (reserved f)
  = if pdu_format f <? 240
    then Z.land (can_id mod 2 ^ 29) (Z.lnot 0xFF00)
    else can_id mod 2 ^ 29.
Proof.
  intros f.
  destruct (pgn_parts can_id) as (Hdp & Hpf & Hps). fold f in Hdp, Hpf, Hps.
  unfold build_j1939_id. rewrite Hdp, Hpf, Hps.
  subst f. unfold parse_j1939_id;
    cbn [priority reserved data_page pdu_format pdu_specific source_address].
  rewrite <- Z.land_ones by lia.
  destruct (_ <? 240).
  - change 0xFF00 with (Z.shiftl (Z.ones 8) 8). unmask.
    change (Z.shiftl 0 8) with 0. Z.bitblast.
  - unmask. Z.bitblast.
Qed.

(** X10. Re-encoding a decoded PDU2 identifier: when the decoded PDU format
    is at least 240, building from the decoded priority, PGN, source
    address and reserved bit gives back the identifier modulo [2^29]. *)
Theorem build_parse_pdu2 (can_id : Z) :
  let f := parse_j1939_id can_id in
  240 <= pdu_format f ->
  build_j1939_id (priority f) (pgn f) (source_address f) (reserved f)
  = can_id mod 2 ^ 29.
Proof.
  intros f Hge. subst f. rewrite build_parse.
  apply Z.ltb_ge in Hge. now rewrite Hge.
Qed.

Lemma build_parse_pdu2_witness :
  240 <= pdu_format (parse_j1939_id 0x18FEF100) /\
  build_j1939_id 6 0xFEF1 0 0 = 0x18FEF100.
Proof.
  split; [cbn; lia | apply (build_parse_pdu2 0x18FEF100); cbn; lia].
Defined.

(** X11. Re-encoding a decoded PDU1 identifier loses the destination
    address: when the decoded PDU format is below 240, building from the
    decoded priority, PGN, source address and reserved bit gives the
    identifier modulo [2^29] with bits 8 to 15 cleared. *)
Theorem build_parse_pdu1 (can_id : Z) :
  let f := parse_j1939_id can_id in
  pdu_format f < 240 ->
  build_j1939_id (priority f) (pgn f) (source_address f) (reserved f)
  = Z.land (can_id mod 2 ^ 29) (Z.lnot 0xFF00).
Proof.
  intros f Hlt. subst f. rewrite build_parse.
  apply Z.ltb_lt in Hlt. now rewrite Hlt.
Qed.

Lemma build_parse_pdu1_witness :
  pdu_format (parse_j1939_id 0x18EF2103) < 240 /\
  build_j1939_id 6 0xEF00 0x03 0 = 0x18EF0003.
Proof.
  split; [reflexivity | apply (build_parse_pdu1 0x18EF2103); reflexivity].
Defined.

(** X12. A decoded PGN is stable: building an identifier from the PGN that
    the decoder returned, with any priority, source address and reserved
    bit, and decoding it again gives the same PGN. *)
Theorem parse_build_pgn_stable (can_id priority source_address reserved : Z) :
  pgn (parse_j1939_id
         (build_j1939_id priority (pgn (parse_j1939_id can_id))
                         source_address reserved))
  = pgn (parse_j1939_id can_id).
Proof.
  rewrite parse_build. cbn [pgn].
  destruct (pgn_parts can_id) as (Hdp & Hpf & Hps).
  cbv zeta in Hdp, Hpf, Hps. rewrite Hdp, Hpf, Hps.
  unfold parse_j1939_id; cbn [pgn data_page pdu_format pdu_specific].
  destruct (_ <? 240); reflexivity.
Qed.

(** A value that a mask leaves unchanged, masked again: the masks
    combine. *)
Lemma land_fixed (x m k : Z) :
  Z.land x m = x -> Z.land x k = Z.land x (Z.land m k).
Proof. intros H. rewrite Z.land_assoc. now rewrite H. Qed.

(** The PGN decoded from a built identifier, in terms of the PGN
    argument. *)
Lemma parse_build_pgn (priority pgn source_address reserved : Z) :
  J1939.pgn (parse_j1939_id
               (build_j1939_id priority pgn source_address reserved))
  = if Z.land (Z.shiftr pgn 8) 0xFF <? 240
    then Z.land pgn 0x1FF00
    else Z.land pgn 0x1FFFF.
Proof.
  rewrite parse_build. cbn [J1939.pgn].
  destruct (_ <? 240).
  - change 0x1FF00 with (Z.shiftl (Z.ones 9) 8). unmask. Z.bitblast.
  - apply pgn_components.
Qed.

(** X13. When the decoder gives back the PGN that was encoded: exactly when
    the PGN argument is in [0, 0x1FFFF] and, in the PDU1 case (PDU format
    byte below 240), its low byte is zero. *)
Theorem parse_build_pgn_same_iff (priority pgn source_address reserved : Z) :
  J1939.pgn (parse_j1939_id
               (build_j1939_id priority pgn source_address reserved)) = pgn
  <->
  0 <= pgn <= 0x1FFFF /\
  (Z.land (Z.shiftr pgn 8) 0xFF < 240 -> Z.land pgn 0xFF = 0).
Proof.
  rewrite parse_build_pgn.
  destruct (Z.ltb_spec (Z.land (Z.shiftr pgn 8) 0xFF) 240) as [Hlt | Hge].
  - split.
    + intros H. split.
      * pose proof (land_fixed pgn 0x1FF00 (Z.ones 17) H) as H17.
        change (Z.land 0x1FF00 (Z.ones 17)) with 0x1FF00 in H17.
        rewrite H in H17.
        pose proof (masked_range 17 pgn ltac:(lia) (eq_sym H17)) as Hr.
        change (2 ^ 17) with 131072 in Hr. lia.
      * intros _. rewrite (land_fixed pgn 0x1FF00 0xFF H).
        apply Z.land_0_r.
    + intros (Hr & Hlow). specialize (Hlow Hlt).
      assert (Z.land pgn 0x1FFFF = pgn) as H17.
      { change 0x1FFFF with (Z.ones 17). rewrite Z.land_ones by lia.
        apply Z.mod_small. change (2 ^ 17) with 131072. lia. }
      rewrite <- H17 at 2.
      change 0x1FFFF with (Z.lor 0x1FF00 0xFF).
      rewrite Z.land_lor_distr_r, Hlow. now rewrite Z.lor_0_r.
  - split.
    + intros H. split; [|lia].
      pose proof (masked_range 17 pgn ltac:(lia) (eq_sym H)) as Hr.
      change (2 ^ 17) with 131072 in Hr. lia.
    + intros (Hr & _).
      change 0x1FFFF with (Z.ones 17). rewrite Z.land_ones by lia.
      apply Z.mod_small. change (2 ^ 17) with 131072. lia.
Qed.

(** X14. The whole record decoded from a built identifier, for all integer
    arguments: the masked priority, reserved bit and source address, the
    three components of the PGN argument (its low byte is kept as PDU
    specific in the PDU1 case too), and as PGN the argument masked with
    [0x1FF00] in the PDU1 case and with [0x1FFFF] in the PDU2 case. *)
Theorem parse_build_record (priority pgn source_address reserved : Z) :
  parse_j1939_id (build_j1939_id priority pgn source_address reserved)
  = mk_fields (Z.land priority 0x7) (Z.land reserved 0x1)
              (Z.land (Z.shiftr pgn 16) 0x1)
              (Z.land (Z.shiftr pgn 8) 0xFF)
              (Z.land pgn 0xFF)
              (Z.land source_address 0xFF)
              (if Z.land (Z.shiftr pgn 8) 0xFF <? 240
               then Z.land pgn 0x1FF00
               else Z.land pgn 0x1FFFF).
Proof.
  rewrite <- (parse_build_pgn priority pgn source_address reserved).
  rewrite parse_build. reflexivity.
Qed.

(** X15. The identifier as a sum of its decoded fields: for every integer,
    [can_id mod 2^29] is [priority * 2^26 + reserved * 2^25 +
    data_page * 2^24 + pdu_format * 2^16 + pdu_specific * 2^8 +
    source_address]. *)
Theorem parse_as_sum (can_id : Z) :
  let f := parse_j1939_id can_id in
  can_id mod 2 ^ 29
  = priority f * 2 ^ 26 + reserved f * 2 ^ 25 + data_page f * 2 ^ 24
    + pdu_format f * 2 ^ 16 + pdu_specific f * 2 ^ 8 + source_address f.
Proof.
  intros f; subst f.
  rewrite <- reassemble_parse.
  unfold reassemble, parse_j1939_id;
    cbn [priority reserved data_page pdu_format pdu_specific source_address].
  rewrite <- !Z.shiftl_mul_pow2 by lia.
  unmask.
  set (a := Z.shiftl (Z.land (Z.shiftr can_id 26) (Z.ones 3)) 26).
  set (b := Z.shiftl (Z.land (Z.shiftr can_id 25) (Z.ones 1)) 25).
  set (c := Z.shiftl (Z.land (Z.shiftr can_id 24) (Z.ones 1)) 24).
  set (d := Z.shiftl (Z.land (Z.shiftr can_id 16) (Z.ones 8)) 16).
  set (e := Z.shiftl (Z.land (Z.shiftr can_id 8) (Z.ones 8)) 8).
  set (g := Z.land can_id (Z.ones 8)).
  rewrite <- (Z.or_to_plus a b) by (subst a b; Z.bitblast).
  rewrite <- (Z.or_to_plus (Z.lor a b) c) by (subst a b c; Z.bitblast).
  rewrite <- (Z.or_to_plus (Z.lor (Z.lor a b) c) d)
    by (subst a b c d; Z.bitblast).
  rewrite <- (Z.or_to_plus (Z.lor (Z.lor (Z.lor a b) c) d) e)
    by (subst a b c d e; Z.bitblast).
  rewrite <- (Z.or_to_plus (Z.lor (Z.lor (Z.lor (Z.lor a b) c) d) e) g)
    by (subst a b c d e g; Z.bitblast).
  reflexivity.
Qed.
